(** * The image-geolocation pipeline of [get_address.py]

    A shallow embedding of [Cloud APIs/azure-maps-search-api/get_address.py]:
    the [GPSCoordinate] / [GPSLocation] value types, the EXIF extractor
    [_get_gps_location], the reverse-geocoding adapter [_search_address] and
    the command [get_address].

    Conventions of the embedding.
    - Numbers are exact rationals ([Q], compared with [==]).  The EXIF
      RATIONAL components and the arithmetic [d + m/60 + s/3600] are exact in
      the source; the final [float(...)] is the identity here, so rounding to
      binary64 is not part of the model.  [to_decimal_float] is the same
      expression on binary64 numbers, for evaluation at single inputs.
    - Python [None] returned by a function whose result is a record is
      [option]; the dynamically typed values of the service response are
      [pyval], where [PNone] is Python's [None].
    - An exception is the [Raise] branch of [outcome].
    - Printing and the one network request are events appended to a log. *)

From Stdlib Require Import QArith Qabs Lqa Ascii PrimFloat.
From stdpp Require Import gmap strings list fin_maps pretty.

Open Scope string_scope.
Set Warnings "-register-all".

(** ** Exceptions and results *)

Inductive exn :=
| IndexError
| KeyError
| TypeError
| AttributeError
| ServiceError.

Inductive outcome (A : Type) :=
| Return (a : A)
| Raise (e : exn).
Arguments Return {A} a.
Arguments Raise {A} e.

#[global] Instance outcome_ret : MRet outcome := fun A a => Return a.
#[global] Instance outcome_bind : MBind outcome := fun A B k r =>
  match r with
  | Return a => k a
  | Raise e => Raise e
  end.

(** ** Python values of the service response *)

Inductive pyval :=
| PNone
| PBool (b : bool)
| PNum (q : Q)
| PStr (s : string)
| PList (l : list pyval)
| PDict (m : gmap string pyval).

(** ** [GPSCoordinate] and [GPSLocation] *)

Record GPSCoordinate := mkGPSCoordinate {
  degrees : Q;
  minutes : Q;
  seconds : Q;
  direction : string
}.

Record GPSLocation := mkGPSLocation {
  latitude : GPSCoordinate;
  longitude : GPSCoordinate
}.

(** [self.direction in ['S', 'W']] *)
Definition direction_in_SW (d : string) : bool :=
  existsb (String.eqb d) ["S"; "W"].

(** [self.degrees + self.minutes / 60 + self.seconds / 3600] *)
Definition magnitude (c : GPSCoordinate) : Q :=
  (degrees c + minutes c / 60 + seconds c / 3600)%Q.

(** [GPSCoordinate.to_decimal] *)
Definition to_decimal (c : GPSCoordinate) : Q :=
  (magnitude c * (if direction_in_SW (direction c) then -1 else 1))%Q.

(** The same expression on binary64 numbers, the declared type of the
    fields: used to evaluate single inputs, signed zero included. *)
Definition to_decimal_float (c : float * float * float * string) : float :=
  let '(d, m, s, h) := c in
  ((d + m / 60 + s / 3600) * (if direction_in_SW h then -1 else 1))%float.

(** The equator with a southern reference: a valid triplet whose decimal
    value is zero. *)
Definition equator_south : GPSCoordinate := mkGPSCoordinate 0 0 0 "S".

(** [__str__] / [__repr__]; [str_number] renders one numeric field. *)
Definition GPSCoordinate_str (str_number : Q -> string) (c : GPSCoordinate) : string :=
  str_number (degrees c) ++ "° " ++ str_number (minutes c) ++ "' "
  ++ str_number (seconds c) ++ String "034"%char " " ++ direction c.

(** ** EXIF metadata

    An image carries an optional EXIF table; the table maps an IFD tag to a
    block, and a block maps a field tag to its value.  EXIF values are ASCII
    strings or sequences of RATIONALs. *)

Inductive exif_value :=
| Ascii (s : string)
| Rationals (l : list Q).

Record Exif := mkExif { exif_ifds : gmap N (gmap N exif_value) }.

Record Image := mkImage { getexif : option Exif }.

Definition get_ifd (exif_data : Exif) (tag : N) : option (gmap N exif_value) :=
  exif_ifds exif_data !! tag.

(** Tag numbers of the EXIF standard, under the names the source uses. *)
Module ExifTags.
Module IFD.
Definition GPSInfo : N := 34853.
End IFD.
Module GPS.
Definition GPSLatitudeRef : N := 1.
Definition GPSLatitude : N := 2.
Definition GPSLongitudeRef : N := 3.
Definition GPSLongitude : N := 4.
End GPS.
End ExifTags.

(** [v[i]] on a triplet: out of range raises.  The dataclass declares its
    numeric fields [float] and its direction [str]; a value of the other EXIF
    type is rejected here with [TypeError] (in Python the ill-typed value is
    stored and the error surfaces at its first arithmetic use). *)
Definition exif_index (v : exif_value) (i : nat) : outcome Q :=
  match v with
  | Rationals l =>
      match l !! i with
      | Some q => Return q
      | None => Raise IndexError
      end
  | Ascii _ => Raise TypeError
  end.

Definition exif_str (v : exif_value) : outcome string :=
  match v with
  | Ascii s => Return s
  | Rationals _ => Raise TypeError
  end.

(** [GPSCoordinate(v[0], v[1], v[2], ref)] *)
Definition GPSCoordinate_of (v ref : exif_value) : outcome GPSCoordinate :=
  d ← exif_index v 0;
  m ← exif_index v 1;
  s ← exif_index v 2;
  r ← exif_str ref;
  mret (mkGPSCoordinate d m s r).

(** [None in (lat, lon, lat_ref, lon_ref)] *)
Definition None_in (fields : list (option exif_value)) : bool :=
  existsb (fun f => match f with None => true | Some _ => false end) fields.

(** [_get_gps_location] *)
Definition _get_gps_location (img : Image) : outcome (option GPSLocation) :=
  match getexif img with
  | None => Return None
  | Some exif_data =>
      match get_ifd exif_data ExifTags.IFD.GPSInfo with
      | None => Return None
      | Some gps_info =>
          let lat := gps_info !! ExifTags.GPS.GPSLatitude in
          let lat_ref := gps_info !! ExifTags.GPS.GPSLatitudeRef in
          let lon := gps_info !! ExifTags.GPS.GPSLongitude in
          let lon_ref := gps_info !! ExifTags.GPS.GPSLongitudeRef in
          if None_in [lat; lon; lat_ref; lon_ref] then Return None
          else
            match lat, lon, lat_ref, lon_ref with
            | Some lat, Some lon, Some lat_ref, Some lon_ref =>
                longitude ← GPSCoordinate_of lon lon_ref;
                latitude ← GPSCoordinate_of lat lat_ref;
                Return (Some (mkGPSLocation latitude longitude))
            | _, _, _, _ => Return None
            end
      end
  end.

(** The raw field of the positioning block, [None] when the EXIF table, the
    block or the field is missing. *)
Definition gps_field (img : Image) (tag : N) : option exif_value :=
  exif_data ← getexif img;
  gps_info ← get_ifd exif_data ExifTags.IFD.GPSInfo;
  gps_info !! tag.

(** Statue of Liberty: [GPSLatitude=(40,41,21)], ['N'], [GPSLongitude=(74,2,40)], ['W']. *)
Definition liberty_gps : gmap N exif_value :=
  <[ExifTags.GPS.GPSLatitude := Rationals [40; 41; 21]%Q]>
  (<[ExifTags.GPS.GPSLatitudeRef := Ascii "N"]>
  (<[ExifTags.GPS.GPSLongitude := Rationals [74; 2; 40]%Q]>
  (<[ExifTags.GPS.GPSLongitudeRef := Ascii "W"]> ∅))).

Definition image_of_gps (gps_info : gmap N exif_value) : Image :=
  mkImage (Some (mkExif {[ExifTags.IFD.GPSInfo := gps_info]})).

Definition liberty_image : Image := image_of_gps liberty_gps.

Definition liberty_location : GPSLocation :=
  mkGPSLocation (mkGPSCoordinate 40 41 21 "N") (mkGPSCoordinate 74 2 40 "W").

Definition latitude_only_gps : gmap N exif_value :=
  <[ExifTags.GPS.GPSLatitude := Rationals [40; 41; 21]%Q]>
  (<[ExifTags.GPS.GPSLatitudeRef := Ascii "N"]> ∅).

Definition latitude_only_image : Image := image_of_gps latitude_only_gps.

(** The same block as [liberty_gps] with 75 minutes of latitude. *)
Definition minutes_75_gps : gmap N exif_value :=
  <[ExifTags.GPS.GPSLatitude := Rationals [40; 75; 21]%Q]> liberty_gps.

Definition minutes_75_image : Image := image_of_gps minutes_75_gps.

(** The invariant of the data model on one coordinate. *)
Definition coordinate_invariant (c : GPSCoordinate) : Prop :=
  (0 <= degrees c /\ (0 <= minutes c /\ minutes c < 60) /\
   (0 <= seconds c /\ seconds c < 60))%Q.

(** The first three components of a metadata sequence. *)
Definition triplet_of (l : list Q) : option (Q * Q * Q) :=
  match l with
  | d :: m :: s :: _ => Some (d, m, s)
  | _ => None
  end.

(** The same ranges on the raw triplet of the metadata. *)
Definition triplet_in_range (l : list Q) : Prop :=
  match triplet_of l with
  | Some (d, m, s) => (0 <= d /\ (0 <= m /\ m < 60) /\ (0 <= s /\ s < 60))%Q
  | None => False
  end.

(** The positioning block is present and holds no field. *)
Definition has_empty_gps_block (img : Image) : Prop :=
  exists exif_data,
    getexif img = Some exif_data /\
    get_ifd exif_data ExifTags.IFD.GPSInfo = Some ∅.

(** There is no positioning block: no EXIF table, or none under the tag. *)
Definition has_no_gps_block (img : Image) : Prop :=
  match getexif img with
  | None => True
  | Some exif_data => get_ifd exif_data ExifTags.IFD.GPSInfo = None
  end.

(** ** Python operations on the response *)

(** [needle in haystack] on strings *)
Fixpoint is_substring (needle haystack : string) : bool :=
  String.prefix needle haystack ||
  match haystack with
  | EmptyString => false
  | String _ rest => is_substring needle rest
  end.

(** [key in v] for a string [key]: a key of a dict, an element of a list
    (only a string equals a string), a substring of a string; other values
    are not iterable. *)
Definition py_contains (key : string) (v : pyval) : outcome bool :=
  match v with
  | PDict m => Return (bool_decide (is_Some (m !! key)))
  | PList l =>
      Return (existsb (fun x => match x with
                                | PStr s => String.eqb key s
                                | _ => false
                                end) l)
  | PStr s => Return (is_substring key s)
  | PNone | PBool _ | PNum _ => Raise TypeError
  end.

(** [v[key]] for a string [key] *)
Definition py_getitem (v : pyval) (key : string) : outcome pyval :=
  match v with
  | PDict m =>
      match m !! key with
      | Some x => Return x
      | None => Raise KeyError
      end
  | _ => Raise TypeError
  end.

(** [v[i]] for an integer [i >= 0]; a dict of string keys has no key [i]. *)
Definition py_index (v : pyval) (i : nat) : outcome pyval :=
  match v with
  | PList l =>
      match l !! i with
      | Some x => Return x
      | None => Raise IndexError
      end
  | PStr s =>
      match String.get i s with
      | Some c => Return (PStr (String c EmptyString))
      | None => Raise IndexError
      end
  | PDict _ => Raise KeyError
  | PNone | PBool _ | PNum _ => Raise TypeError
  end.

(** [v.get(key, fallback)]: only a dict has the method. *)
Definition py_get (v : pyval) (key : string) (fallback : pyval) : outcome pyval :=
  match v with
  | PDict m => Return (default fallback (m !! key))
  | _ => Raise AttributeError
  end.

(** ** Effects: printed lines and geocoding requests *)

Inductive event :=
| Print (line : string)
| GetReverseGeocoding (coordinates : list Q).

(** A computation reads the log so far and returns its outcome with the
    extended log; an exception keeps the log written before it. *)
Definition IO (A : Type) : Type := list event -> outcome A * list event.

#[global] Instance IO_ret : MRet IO := fun A a log => (Return a, log).
#[global] Instance IO_bind : MBind IO := fun A B k m log =>
  match m log with
  | (Return a, log') => k a log'
  | (Raise e, log') => (Raise e, log')
  end.

Definition lift {A} (r : outcome A) : IO A := fun log => (r, log).

Definition print (line : string) : IO unit :=
  fun log => (Return tt, (log ++ [Print line])%list).

Definition requests (log : list event) : list (list Q) :=
  omap (fun ev => match ev with
                  | GetReverseGeocoding c => Some c
                  | Print _ => None
                  end) log.

Definition printed (log : list event) : list string :=
  omap (fun ev => match ev with
                  | Print line => Some line
                  | GetReverseGeocoding _ => None
                  end) log.

Section Pipeline.

(** The collaborators: the reverse-geocoding service, the image decoder,
    and Python's rendering of numbers and of a non-string address. *)
Variable get_reverse_geocoding : list Q -> outcome (gmap string pyval).
Variable Image_open : string -> outcome Image.
Variable str_number : Q -> string.
Variable str_other : pyval -> string.

(** [maps_search_client.get_reverse_geocoding(coordinates=...)] *)
Definition call_get_reverse_geocoding (coordinates : list Q)
  : IO (gmap string pyval) :=
  fun log => (get_reverse_geocoding coordinates,
              (log ++ [GetReverseGeocoding coordinates])%list).

(** Lines 119-129 of [_search_address]: what is returned for a response. *)
Definition _search_address_result (result : gmap string pyval) : outcome pyval :=
  if negb (bool_decide (is_Some (result !! "features"))) then Return PNone
  else
    features ← py_getitem (PDict result) "features";
    feature ← py_index features 0;
    props ← py_get feature "properties" (PDict ∅);
    has_address ← py_contains "address" props;
    if negb has_address then Return PNone
    else
      address ← py_getitem props "address";
      py_get address "formattedAddress" PNone.

(** [_search_address] *)
Definition _search_address (location : GPSLocation) : IO pyval :=
  result ← call_get_reverse_geocoding
             [to_decimal (longitude location); to_decimal (latitude location)];
  lift (_search_address_result result).

(** [str(address)] *)
Definition py_str (v : pyval) : string :=
  match v with
  | PStr s => s
  | _ => str_other v
  end.

(** [get_address] *)
Definition get_address (img_path : string) : IO unit :=
  image ← lift (Image_open img_path);
  location ← lift (_get_gps_location image);
  match location with
  | None => print "No se encontraron datos GPS en la imagen."
  | Some location =>
      print "Coordenadas GPS encontradas:";;
      print ("Latitud: " ++ GPSCoordinate_str str_number (latitude location));;
      print ("Longitud: " ++ GPSCoordinate_str str_number (longitude location));;
      print (String "010"%char "Buscando dirección...");;
      address ← _search_address location;
      match address with
      | PNone => print "No se pudo encontrar la dirección para estas coordenadas."
      | _ =>
          print "Dirección encontrada:";;
          print (py_str address)
      end
  end.

End Pipeline.

(** ** Sample responses of the service *)

(** [{'features': []}]: a feature collection with no feature. *)
Definition empty_features_response : gmap string pyval :=
  {["features" := PList []]}.

(** One feature whose properties hold an address with [formattedAddress]. *)
Definition liberty_address : string := "Liberty Island, New York, NY 10004".

Definition liberty_response : gmap string pyval :=
  {["features" :=
      PList [PDict {["properties" :=
        PDict {["address" :=
          PDict {["formattedAddress" := PStr liberty_address]}]}]}]]}.

(** One feature that has a geometry and no [properties] entry. *)
Definition no_properties_response : gmap string pyval :=
  {["features" := PList [PDict {["geometry" := PNone]}]]}.

(** ** Further sample inputs *)

(** [liberty_gps] with an altitude field (tag 6) beside the four fields. *)
Definition liberty_gps_with_altitude : gmap N exif_value :=
  <[6%N := Rationals [93%Q]]> liberty_gps.

(** A longitude with two components only. *)
Definition short_longitude_gps : gmap N exif_value :=
  <[ExifTags.GPS.GPSLongitude := Rationals [74; 2]%Q]> liberty_gps.

(** A feature whose [properties] entry is present and null. *)
Definition null_properties_response : gmap string pyval :=
  {["features" := PList [PDict {["properties" := PNone]}]]}.

(** A feature whose [address] entry is a plain string. *)
Definition string_address_response : gmap string pyval :=
  {["features" :=
      PList [PDict {["properties" :=
        PDict {["address" := PStr liberty_address]}]}]]}.

(** An error body: no [features] key. *)
Definition error_response : gmap string pyval :=
  {["error" := PDict {["code" := PStr "400 BadRequest"]}]}.

(** Two features; the first has no address, the second has one. *)
Definition two_features_response : gmap string pyval :=
  {["features" :=
      PList [PDict {["properties" := PDict ∅]};
             PDict {["properties" :=
               PDict {["address" :=
                 PDict {["formattedAddress" := PStr liberty_address]}]}]}]]}.

(** The lines [get_address] prints once a location is found, up to the
    search. *)
Definition coordinates_lines (str_number : Q -> string) (location : GPSLocation)
  : list event :=
  [Print "Coordenadas GPS encontradas:";
   Print ("Latitud: " ++ GPSCoordinate_str str_number (latitude location));
   Print ("Longitud: " ++ GPSCoordinate_str str_number (longitude location));
   Print (String "010"%char "Buscando dirección...")].

(** The request [_search_address] issues for a location. *)
Definition request_of (location : GPSLocation) : event :=
  GetReverseGeocoding
    [to_decimal (longitude location); to_decimal (latitude location)].

(** * The other two commands

    [detect_faces.py] and [translate.py] have effects of their own; their
    computations log events of the script's own event type. *)

Definition IOE (E A : Type) : Type := list E -> outcome A * list E.

#[global] Instance IOE_ret (E : Type) : MRet (IOE E) :=
  fun A a log => (Return a, log).
#[global] Instance IOE_bind (E : Type) : MBind (IOE E) := fun A B k m log =>
  match m log with
  | (Return a, log') => k a log'
  | (Raise e, log') => (Raise e, log')
  end.

(** A pure step that may raise. *)
Definition liftE {E A} (r : outcome A) : IOE E A := fun log => (r, log).

(** A call of a collaborator: the call is logged, its outcome is the
    collaborator's. *)
Definition callE {E A} (ev : E) (r : outcome A) : IOE E A :=
  fun log => (r, (log ++ [ev])%list).

(** ** [detect_faces.py] *)

Module DetectFaces.

(** [FaceRectangle] of the face service: integers, in pixels. *)
Record FaceRectangle := mkFaceRectangle {
  left : Z;
  top : Z;
  width : Z;
  height : Z
}.

(** One element of the detection result; the script reads its
    [face_rectangle] only. *)
Record Face := mkFace { face_rectangle : FaceRectangle }.

Inductive FaceDetectionModel := DETECTION01 | DETECTION02 | DETECTION03.

Inductive FaceRecognitionModel :=
  RECOGNITION01 | RECOGNITION02 | RECOGNITION03 | RECOGNITION04.

(** [_to_coords] *)
Definition _to_coords (face_rectangle : FaceRectangle) : Z * Z * Z * Z :=
  (left face_rectangle,
   top face_rectangle,
   left face_rectangle + width face_rectangle,
   top face_rectangle + height face_rectangle)%Z.

Inductive event :=
| Detect (image_content : list Byte.byte)
         (detection_model : FaceDetectionModel)
         (recognition_model : FaceRecognitionModel)
         (return_face_id return_face_landmarks : bool)
| Print (line : string)
| Rectangle (xy : Z * Z * Z * Z) (outline : string) (stroke : Z)
| Show.

Section Script.

(** The collaborators: reading the file, the face service, decoding the
    bytes into an image, drawing one rectangle. *)
Variable read_binary : string -> outcome (list Byte.byte).
Variable detect : list Byte.byte -> outcome (list Face).
Variable Image_open : list Byte.byte -> outcome unit.
Variable draw_rectangle : Z * Z * Z * Z -> outcome unit.

(** [_detect_faces] *)
Definition _detect_faces (image_content : list Byte.byte)
  : IOE event (list (Z * Z * Z * Z)) :=
  result ← callE (Detect image_content DETECTION03 RECOGNITION04 false false)
                 (detect image_content);
  mret (map (fun face => _to_coords (face_rectangle face)) result).

(** [for face in detected_faces: draw.rectangle(face, outline="green", width=5)] *)
Fixpoint draw_faces (detected_faces : list (Z * Z * Z * Z)) : IOE event unit :=
  match detected_faces with
  | [] => mret tt
  | face :: rest =>
      callE (Rectangle face "green" 5) (draw_rectangle face);;
      draw_faces rest
  end.

(** [main]; creating the face client and [image.show()] are taken to
    return. *)
Definition main (image_path : string) : IOE event unit :=
  image_content ← liftE (read_binary image_path);
  detected_faces ← _detect_faces image_content;
  callE (Print ("Found " ++ pretty (length detected_faces)
                ++ " face(s) in the image."))
        (Return tt);;
  liftE (Image_open image_content);;
  draw_faces detected_faces;;
  callE Show (Return tt).

End Script.

(** The box of one detected face. *)
Definition box_of (face : Face) : Z * Z * Z * Z :=
  _to_coords (face_rectangle face).

(** The events of drawing the boxes of [faces], in order. *)
Definition rectangles (faces : list Face) : list event :=
  map (fun face => Rectangle (_to_coords (face_rectangle face)) "green" 5) faces.

Definition detect_event (image_content : list Byte.byte) : event :=
  Detect image_content DETECTION03 RECOGNITION04 false false.

Definition found_line (n : nat) : event :=
  Print ("Found " ++ pretty n ++ " face(s) in the image.").

(** Sample data: two faces in a picture of three bytes. *)
Definition sample_content : list Byte.byte := [Byte.xff; Byte.xd8; Byte.xff].

Definition sample_faces : list Face :=
  [mkFace (mkFaceRectangle 10 20 30 40); mkFace (mkFaceRectangle 100 50 25 25)].

End DetectFaces.

(** ** [translate.py] *)

Module Translate.

Inductive event :=
| DetectLanguage (text : string)
| TranslateText (text target_language : string)
| Print (line : string).

Section Script.

(** The collaborators: the two calls of the translation client, the
    rendering [format(v, '0.2%')] of the confidence, and the rendering of a
    value that is not a string. *)
Variable detect_language : string -> outcome (gmap string pyval).
Variable translate : string -> string -> outcome (gmap string pyval).
Variable format_percent : pyval -> outcome string.
Variable str_other : pyval -> string.

(** The body of [translate_cmd], with [target_lang] given; creating the
    client is taken to return. *)
Definition translate_cmd (text target_lang : string) : IOE event unit :=
  detect_lang_res ← callE (DetectLanguage text) (detect_language text);
  language ← liftE (py_getitem (PDict detect_lang_res) "language");
  confidence ← liftE (py_getitem (PDict detect_lang_res) "confidence");
  percent ← liftE (format_percent confidence);
  callE (Print ("Lenguaje detectado: '" ++ py_str str_other language
                ++ "' [confianza: " ++ percent ++ "]"))
        (Return tt);;
  translation_res ← callE (TranslateText text target_lang)
                          (translate text target_lang);
  translated ← liftE (py_getitem (PDict translation_res) "translatedText");
  callE (Print ("Traducción a '" ++ target_lang ++ "': "
                ++ py_str str_other translated))
        (Return tt).

End Script.

(** The calls of the translation client in a log. *)
Definition calls (log : list event) : list event :=
  omap (fun ev => match ev with
                  | Print _ => None
                  | DetectLanguage _ | TranslateText _ _ => Some ev
                  end) log.

(** Sample responses. *)
Definition sample_detection : gmap string pyval :=
  {["language" := PStr "en"; "confidence" := PNum 1; "input" := PStr "hello"]}.

Definition sample_translation : gmap string pyval :=
  {["translatedText" := PStr "hola"; "detectedSourceLanguage" := PStr "en";
    "input" := PStr "hello"]}.

End Translate.

(** * Properties *)

(** ** The exception monad *)

Lemma bind_Return {A B} (a : A) (k : A -> outcome B) : Return a ≫= k = k a.
Proof. reflexivity. Qed.

Lemma bind_Raise {A B} (e : exn) (k : A -> outcome B) : Raise e ≫= k = Raise e.
Proof. reflexivity. Qed.

(** ** The coordinate converter *)

Section Converter.

Local Open Scope Q_scope.

Example to_decimal_liberty_lat :
  (to_decimal (mkGPSCoordinate 40 41 21 "N") == 146481 # 3600)%Q.
Proof. reflexivity. Qed.

Lemma direction_in_SW_spec (d : string) :
  direction_in_SW d = true <-> d = "S" \/ d = "W".
Proof.
  unfold direction_in_SW; simpl.
  rewrite !orb_true_iff, !String.eqb_eq.
  intuition discriminate.
Qed.

Lemma direction_in_SW_false (d : string) :
  direction_in_SW d = false <-> d <> "S" /\ d <> "W".
Proof.
  rewrite <- not_true_iff_false, direction_in_SW_spec. tauto.
Qed.

Lemma to_decimal_negated (c : GPSCoordinate) :
  direction c = "S" \/ direction c = "W" -> to_decimal c == - magnitude c.
Proof.
  intros H. apply direction_in_SW_spec in H.
  unfold to_decimal. rewrite H. ring.
Qed.

Lemma to_decimal_plain (c : GPSCoordinate) :
  direction c <> "S" -> direction c <> "W" -> to_decimal c == magnitude c.
Proof.
  intros HS HW.
  assert (H : direction_in_SW (direction c) = false)
    by (apply direction_in_SW_false; split; assumption).
  unfold to_decimal. rewrite H. ring.
Qed.

Lemma magnitude_nonneg (c : GPSCoordinate) :
  0 <= degrees c -> 0 <= minutes c -> 0 <= seconds c -> 0 <= magnitude c.
Proof.
  intros Hd Hm Hs. unfold magnitude.
  assert (0 <= minutes c / 60) by (apply Qle_shift_div_l; lra).
  assert (0 <= seconds c / 3600) by (apply Qle_shift_div_l; lra).
  lra.
Qed.

(** C1, as stated, fails at zero degrees, minutes and seconds South:
    minutes and seconds are in range and the hemisphere is [S], yet the
    decimal value is zero, which is not negative. *)
Lemma to_decimal_equator_south_not_negative :
  (0 <= minutes equator_south /\ minutes equator_south < 60) /\
  (0 <= seconds equator_south /\ seconds equator_south < 60) /\
  to_decimal equator_south == 0 /\
  ~ (to_decimal equator_south < 0 <->
     direction equator_south = "S" \/ direction equator_south = "W").
Proof.
  repeat split; try (vm_compute; congruence).
  intros [_ H].
  assert (Hlt : to_decimal equator_south < 0) by (apply H; left; reflexivity).
  vm_compute in Hlt. discriminate.
Qed.

(** On binary64 numbers the same input gives the negative zero, which
    compares equal to zero and not below it; a non-zero western longitude is
    below zero. *)
Example to_decimal_float_equator_south :
  PrimFloat.ltb (to_decimal_float (0, 0, 0, "S")%float) 0 = false /\
  PrimFloat.eqb (to_decimal_float (0, 0, 0, "S")%float) 0 = true /\
  PrimFloat.ltb (to_decimal_float (74, 2, 40, "W")%float) 0 = true.
Proof. repeat split; reflexivity. Qed.

(** C1 (amended): for a triplet with [degrees >= 0], [0 <= minutes < 60]
    and [0 <= seconds < 60], the absolute value of [to_decimal] equals
    [d + m/60 + s/3600], and the value is negative if and only if the
    hemisphere is [S] or [W] and that magnitude is not zero. *)
Theorem to_decimal_abs_and_sign (c : GPSCoordinate) :
  0 <= degrees c ->
  0 <= minutes c /\ minutes c < 60 ->
  0 <= seconds c /\ seconds c < 60 ->
  Qabs (to_decimal c) == degrees c + minutes c / 60 + seconds c / 3600 /\
  (to_decimal c < 0 <->
   (direction c = "S" \/ direction c = "W") /\
   0 < degrees c + minutes c / 60 + seconds c / 3600).
Proof.
  intros Hd [Hm _] [Hs _].
  pose proof (magnitude_nonneg c Hd Hm Hs) as Hmag.
  change (degrees c + minutes c / 60 + seconds c / 3600) with (magnitude c).
  destruct (direction_in_SW (direction c)) eqn:E.
  - apply direction_in_SW_spec in E.
    pose proof (to_decimal_negated c E) as Hv.
    split.
    + rewrite Hv, Qabs_opp. apply Qabs_pos, Hmag.
    + rewrite Hv. split.
      * intros Hneg. split; [exact E | lra].
      * intros [_ Hpos]. lra.
  - apply direction_in_SW_false in E. destruct E as [HS HW].
    pose proof (to_decimal_plain c HS HW) as Hv.
    split.
    + rewrite Hv. apply Qabs_pos, Hmag.
    + rewrite Hv. split.
      * intros Hneg. lra.
      * intros [[H | H] _]; contradiction.
Qed.

Lemma to_decimal_abs_and_sign_witness :
  Qabs (to_decimal (mkGPSCoordinate 74 2 40 "W")) == 74 + 2 / 60 + 40 / 3600 /\
  (to_decimal (mkGPSCoordinate 74 2 40 "W") < 0 <->
   ("W" = "S" \/ "W" = "W") /\ 0 < 74 + 2 / 60 + 40 / 3600).
Proof.
  apply (to_decimal_abs_and_sign (mkGPSCoordinate 74 2 40 "W"));
    simpl; lra.
Defined.

(** C9: whatever the hemisphere field holds outside ['S'] and ['W'] (['N'],
    ['E'], any other string), [to_decimal] is the magnitude
    [d + m/60 + s/3600] itself; with ['S'] or ['W'] it is the negated
    magnitude. *)
Theorem to_decimal_negates_exactly_S_W (c : GPSCoordinate) :
  (direction c <> "S" -> direction c <> "W" ->
   to_decimal c == degrees c + minutes c / 60 + seconds c / 3600) /\
  (direction c = "S" \/ direction c = "W" ->
   to_decimal c == - (degrees c + minutes c / 60 + seconds c / 3600)).
Proof.
  split.
  - apply to_decimal_plain.
  - apply to_decimal_negated.
Qed.

Lemma to_decimal_negates_exactly_S_W_witness :
  to_decimal (mkGPSCoordinate 40 41 21 "south") == 40 + 41 / 60 + 21 / 3600 /\
  to_decimal (mkGPSCoordinate 40 41 21 "S") == - (40 + 41 / 60 + 21 / 3600).
Proof.
  split.
  - apply (proj1 (to_decimal_negates_exactly_S_W
                    (mkGPSCoordinate 40 41 21 "south"))); simpl; discriminate.
  - apply (proj2 (to_decimal_negates_exactly_S_W
                    (mkGPSCoordinate 40 41 21 "S"))); simpl; left; reflexivity.
Defined.

End Converter.

(** ** The metadata extractor *)

Section Extractor.

Import ExifTags.

Example _get_gps_location_liberty :
  _get_gps_location liberty_image = Return (Some liberty_location).
Proof. vm_compute. reflexivity. Qed.

(** What [_get_gps_location] computes once the positioning block is in
    hand, in terms of the four raw fields. *)
Lemma _get_gps_location_fields (img : Image) :
  _get_gps_location img =
  match gps_field img GPS.GPSLatitude, gps_field img GPS.GPSLongitude,
        gps_field img GPS.GPSLatitudeRef, gps_field img GPS.GPSLongitudeRef with
  | Some lat, Some lon, Some lat_ref, Some lon_ref =>
      longitude ← GPSCoordinate_of lon lon_ref;
      latitude ← GPSCoordinate_of lat lat_ref;
      Return (Some (mkGPSLocation latitude longitude))
  | _, _, _, _ => Return None
  end.
Proof.
  unfold _get_gps_location, gps_field.
  destruct (getexif img) as [exif_data|]; [|reflexivity].
  cbn [mbind option_bind].
  destruct (get_ifd exif_data IFD.GPSInfo) as [gps_info|]; [|reflexivity].
  cbn [mbind option_bind].
  destruct (gps_info !! GPS.GPSLatitude), (gps_info !! GPS.GPSLongitude),
    (gps_info !! GPS.GPSLatitudeRef), (gps_info !! GPS.GPSLongitudeRef);
    reflexivity.
Qed.

(** C3: when any one of the four raw GPS fields is missing, the extractor
    returns [None]; it raises nothing and builds no location. *)
Theorem _get_gps_location_missing_field (img : Image) :
  gps_field img GPS.GPSLatitude = None \/
  gps_field img GPS.GPSLatitudeRef = None \/
  gps_field img GPS.GPSLongitude = None \/
  gps_field img GPS.GPSLongitudeRef = None ->
  _get_gps_location img = Return None.
Proof.
  intros H. rewrite _get_gps_location_fields.
  destruct H as [H | [H | [H | H]]]; rewrite H;
    repeat (match goal with
            | |- context [match ?o with Some _ => _ | None => _ end] =>
                destruct o
            end); reflexivity.
Qed.

Lemma _get_gps_location_missing_field_witness :
  _get_gps_location latitude_only_image = Return None.
Proof.
  apply (_get_gps_location_missing_field latitude_only_image).
  right; right; left. vm_compute. reflexivity.
Defined.

(** The converse: a returned location has all four raw fields behind it. *)
Lemma _get_gps_location_Some_fields (img : Image) (location : GPSLocation) :
  _get_gps_location img = Return (Some location) ->
  exists lat lon lat_ref lon_ref,
    gps_field img GPS.GPSLatitude = Some lat /\
    gps_field img GPS.GPSLongitude = Some lon /\
    gps_field img GPS.GPSLatitudeRef = Some lat_ref /\
    gps_field img GPS.GPSLongitudeRef = Some lon_ref /\
    GPSCoordinate_of lat lat_ref = Return (latitude location) /\
    GPSCoordinate_of lon lon_ref = Return (longitude location).
Proof.
  rewrite _get_gps_location_fields.
  destruct (gps_field img GPS.GPSLatitude) as [lat|]; [|discriminate].
  destruct (gps_field img GPS.GPSLongitude) as [lon|]; [|discriminate].
  destruct (gps_field img GPS.GPSLatitudeRef) as [lat_ref|]; [|discriminate].
  destruct (gps_field img GPS.GPSLongitudeRef) as [lon_ref|]; [|discriminate].
  destruct (GPSCoordinate_of lon lon_ref) as [lo|] eqn:Hlo; [|discriminate].
  destruct (GPSCoordinate_of lat lat_ref) as [la|] eqn:Hla; [|discriminate].
  cbn. intros [= <-]. exists lat, lon, lat_ref, lon_ref.
  repeat split; assumption.
Qed.

(** [GPSCoordinate_of] stores the first three components and the reference
    as they are. *)
Lemma GPSCoordinate_of_Return (v ref : exif_value) (c : GPSCoordinate) :
  GPSCoordinate_of v ref = Return c ->
  exists l, v = Rationals l /\ ref = Ascii (direction c) /\
    l !! 0%nat = Some (degrees c) /\
    l !! 1%nat = Some (minutes c) /\
    l !! 2%nat = Some (seconds c).
Proof.
  unfold GPSCoordinate_of.
  destruct v as [?|l]; [discriminate|].
  destruct ref as [r|?].
  - cbn. destruct (l !! 0%nat) as [d|] eqn:H0; [|discriminate].
    destruct (l !! 1%nat) as [m|] eqn:H1; [|discriminate].
    destruct (l !! 2%nat) as [s|] eqn:H2; [|discriminate].
    cbn. intros [= <-]. exists l. repeat split; assumption.
  - cbn. destruct (l !! 0%nat) as [d|]; [|discriminate].
    destruct (l !! 1%nat) as [m|]; [|discriminate].
    destruct (l !! 2%nat) as [s|]; discriminate.
Qed.

(** C6, as stated, fails: a latitude triplet with 75 minutes is copied into
    the coordinate as it is. *)
Lemma _get_gps_location_keeps_75_minutes :
  exists location,
    _get_gps_location minutes_75_image = Return (Some location) /\
    ~ coordinate_invariant (latitude location).
Proof.
  exists (mkGPSLocation (mkGPSCoordinate 40 75 21 "N")
                        (mkGPSCoordinate 74 2 40 "W")).
  split; [vm_compute; reflexivity|].
  intros (_ & (_ & H) & _). vm_compute in H. discriminate.
Qed.

(** C6 (amended): every coordinate the extractor builds holds the first
    three components of its metadata triplet and the hemisphere reference
    unchanged; it satisfies [0 <= minutes < 60], [0 <= seconds < 60] and
    [degrees >= 0] exactly when the triplet in the metadata does. *)
Theorem _get_gps_location_invariant_iff (img : Image) (location : GPSLocation) :
  _get_gps_location img = Return (Some location) ->
  exists lat lon,
    gps_field img GPS.GPSLatitude = Some (Rationals lat) /\
    gps_field img GPS.GPSLongitude = Some (Rationals lon) /\
    gps_field img GPS.GPSLatitudeRef = Some (Ascii (direction (latitude location))) /\
    gps_field img GPS.GPSLongitudeRef = Some (Ascii (direction (longitude location))) /\
    triplet_of lat = Some (degrees (latitude location),
                           minutes (latitude location),
                           seconds (latitude location)) /\
    triplet_of lon = Some (degrees (longitude location),
                           minutes (longitude location),
                           seconds (longitude location)) /\
    (coordinate_invariant (latitude location) <-> triplet_in_range lat) /\
    (coordinate_invariant (longitude location) <-> triplet_in_range lon).
Proof.
  intros H.
  destruct (_get_gps_location_Some_fields img location H)
    as (lat & lon & lat_ref & lon_ref & Hlat & Hlon & Hlatr & Hlonr & Hla & Hlo).
  apply GPSCoordinate_of_Return in Hla as (la & -> & -> & Ha0 & Ha1 & Ha2).
  apply GPSCoordinate_of_Return in Hlo as (lo & -> & -> & Ho0 & Ho1 & Ho2).
  exists la, lo.
  assert (Ta : triplet_of la = Some (degrees (latitude location),
                 minutes (latitude location), seconds (latitude location))).
  { destruct la as [|d [|m [|s ?]]]; try discriminate.
    cbn in *. congruence. }
  assert (To : triplet_of lo = Some (degrees (longitude location),
                 minutes (longitude location), seconds (longitude location))).
  { destruct lo as [|d [|m [|s ?]]]; try discriminate.
    cbn in *. congruence. }
  repeat split; try assumption;
    unfold triplet_in_range, coordinate_invariant in *;
    rewrite ?Ta, ?To in *; tauto.
Qed.

Lemma _get_gps_location_invariant_iff_witness :
  exists lat lon,
    gps_field liberty_image GPS.GPSLatitude = Some (Rationals lat) /\
    gps_field liberty_image GPS.GPSLongitude = Some (Rationals lon) /\
    gps_field liberty_image GPS.GPSLatitudeRef = Some (Ascii "N") /\
    gps_field liberty_image GPS.GPSLongitudeRef = Some (Ascii "W") /\
    triplet_of lat = Some (40, 41, 21)%Q /\
    triplet_of lon = Some (74, 2, 40)%Q /\
    (coordinate_invariant (latitude liberty_location) <-> triplet_in_range lat) /\
    (coordinate_invariant (longitude liberty_location) <-> triplet_in_range lon).
Proof.
  apply (_get_gps_location_invariant_iff liberty_image liberty_location).
  vm_compute. reflexivity.
Defined.

(** C7: an image whose positioning block is present but empty yields
    [None], the same result as an image with no positioning block. *)
Theorem _get_gps_location_empty_block (img img' : Image) :
  has_empty_gps_block img ->
  has_no_gps_block img' ->
  _get_gps_location img = Return None /\
  _get_gps_location img = _get_gps_location img'.
Proof.
  intros (exif_data & He & Hb) Hn.
  assert (H1 : _get_gps_location img = Return None).
  { unfold _get_gps_location. rewrite He, Hb. reflexivity. }
  assert (H2 : _get_gps_location img' = Return None).
  { unfold _get_gps_location, has_no_gps_block in *.
    destruct (getexif img') as [e|]; [|reflexivity].
    rewrite Hn. reflexivity. }
  split; congruence.
Qed.

Lemma _get_gps_location_empty_block_witness :
  _get_gps_location (image_of_gps ∅) = Return None /\
  _get_gps_location (image_of_gps ∅) = _get_gps_location (mkImage (Some (mkExif ∅))).
Proof.
  apply (_get_gps_location_empty_block (image_of_gps ∅) (mkImage (Some (mkExif ∅)))).
  - exists (mkExif {[IFD.GPSInfo := ∅]}). split; reflexivity.
  - reflexivity.
Defined.

End Extractor.

(** ** The reverse-geocoding adapter *)

Section Adapter.

Variable get_reverse_geocoding : list Q -> outcome (gmap string pyval).

(** The outcome of [_search_address] is the outcome of the response
    handling on what the service returned for [longitude, latitude]. *)
Lemma _search_address_outcome (location : GPSLocation) (log : list event) :
  (_search_address get_reverse_geocoding location log).1 =
  result ← get_reverse_geocoding
             [to_decimal (longitude location); to_decimal (latitude location)];
  _search_address_result result.
Proof.
  unfold _search_address, call_get_reverse_geocoding, lift.
  cbn [mbind IO_bind].
  destruct (get_reverse_geocoding _); reflexivity.
Qed.

(** C4: the adapter issues exactly one request, and its coordinate list is
    the decimal longitude followed by the decimal latitude. *)
Theorem _search_address_request_order (location : GPSLocation) (log : list event) :
  (_search_address get_reverse_geocoding location log).2 =
  (log ++ [GetReverseGeocoding
             [to_decimal (longitude location); to_decimal (latitude location)]])%list.
Proof.
  unfold _search_address, call_get_reverse_geocoding, lift.
  cbn [mbind IO_bind].
  destruct (get_reverse_geocoding _); reflexivity.
Qed.

(** With an empty feature list the indexing [result['features'][0]] raises. *)
Lemma _search_address_result_empty_features (result : gmap string pyval) :
  result !! "features" = Some (PList []) ->
  _search_address_result result = Raise IndexError.
Proof.
  intros H. unfold _search_address_result.
  rewrite H. cbn. rewrite H. reflexivity.
Qed.

(** Without the [features] key the adapter returns [None]. *)
Lemma _search_address_result_no_features_key (result : gmap string pyval) :
  result !! "features" = None ->
  _search_address_result result = Return PNone.
Proof.
  intros H. unfold _search_address_result. rewrite H. reflexivity.
Qed.

(** The response handling on a first feature that is a dict whose
    properties, taken as empty when missing, are the dict [props]. *)
Lemma _search_address_result_first_feature
    (result feature props : gmap string pyval) (rest : list pyval) :
  result !! "features" = Some (PList (PDict feature :: rest)) ->
  default (PDict ∅) (feature !! "properties") = PDict props ->
  _search_address_result result =
  match props !! "address" with
  | None => Return PNone
  | Some address => py_get address "formattedAddress" PNone
  end.
Proof.
  intros Hf Hp. unfold _search_address_result.
  rewrite bool_decide_eq_true_2 by (rewrite Hf; eauto).
  cbn [negb py_getitem]. rewrite Hf, bind_Return.
  cbn [py_index lookup list_lookup]. rewrite bind_Return.
  cbn [py_get]. rewrite Hp, bind_Return.
  cbn [py_contains]. rewrite bind_Return.
  destruct (props !! "address") as [address|] eqn:Ha.
  - rewrite bool_decide_eq_true_2 by eauto.
    cbn [negb py_getitem]. rewrite Ha. reflexivity.
  - rewrite bool_decide_eq_false_2 by (intros [? ?]; discriminate).
    reflexivity.
Qed.

(** C5: on a response whose feature list starts with a feature whose
    properties are [props]: without an [address] entry the adapter returns
    [None]; with one it returns the entry's [formattedAddress], and [None]
    when the entry has no such field. *)
Theorem _search_address_formatted_address
    (location : GPSLocation) (log : list event)
    (result feature props : gmap string pyval) (rest : list pyval) :
  get_reverse_geocoding
    [to_decimal (longitude location); to_decimal (latitude location)]
    = Return result ->
  result !! "features" = Some (PList (PDict feature :: rest)) ->
  default (PDict ∅) (feature !! "properties") = PDict props ->
  (props !! "address" = None ->
   (_search_address get_reverse_geocoding location log).1 = Return PNone) /\
  (forall (address : gmap string pyval) (formatted : pyval),
      props !! "address" = Some (PDict address) ->
      address !! "formattedAddress" = Some formatted ->
      (_search_address get_reverse_geocoding location log).1 = Return formatted) /\
  (forall address : gmap string pyval,
      props !! "address" = Some (PDict address) ->
      address !! "formattedAddress" = None ->
      (_search_address get_reverse_geocoding location log).1 = Return PNone).
Proof.
  intros Hs Hf Hp.
  rewrite _search_address_outcome, Hs, bind_Return.
  rewrite (_search_address_result_first_feature result feature props rest Hf Hp).
  repeat split.
  - intros ->. reflexivity.
  - intros address formatted -> Hfa. cbn [py_get]. rewrite Hfa. reflexivity.
  - intros address -> Hfa. cbn [py_get]. rewrite Hfa. reflexivity.
Qed.

(** C10: when the first feature has no [properties] entry, the lookup
    [.get('properties', {})] yields the empty dict and the adapter returns
    [None] without raising. *)
Theorem _search_address_no_properties
    (location : GPSLocation) (log : list event)
    (result feature : gmap string pyval) (rest : list pyval) :
  get_reverse_geocoding
    [to_decimal (longitude location); to_decimal (latitude location)]
    = Return result ->
  result !! "features" = Some (PList (PDict feature :: rest)) ->
  feature !! "properties" = None ->
  py_get (PDict feature) "properties" (PDict ∅) = Return (PDict ∅) /\
  (_search_address get_reverse_geocoding location log).1 = Return PNone.
Proof.
  intros Hs Hf Hp. split.
  - cbn [py_get]. rewrite Hp. reflexivity.
  - rewrite _search_address_outcome, Hs, bind_Return.
    rewrite (_search_address_result_first_feature result feature ∅ rest Hf)
      by (rewrite Hp; reflexivity).
    reflexivity.
Qed.

End Adapter.

(** C2 fails on the code: for the response [{'features': []}] the adapter
    raises [IndexError] instead of returning [None]. *)
Theorem _search_address_empty_features_raises :
  (_search_address (fun _ => Return empty_features_response)
     liberty_location []).1 = Raise IndexError.
Proof.
  rewrite _search_address_outcome, bind_Return.
  apply _search_address_result_empty_features. reflexivity.
Qed.

Example _search_address_liberty_request :
  requests (_search_address (fun _ => Return liberty_response)
              liberty_location []).2
  = [[to_decimal (mkGPSCoordinate 74 2 40 "W");
      to_decimal (mkGPSCoordinate 40 41 21 "N")]].
Proof. vm_compute. reflexivity. Qed.

Lemma _search_address_formatted_address_witness :
  (_search_address (fun _ => Return liberty_response) liberty_location []).1
  = Return (PStr liberty_address).
Proof.
  eapply (proj1 (proj2 (_search_address_formatted_address
            (fun _ => Return liberty_response) liberty_location []
            liberty_response
            {["properties" :=
                PDict {["address" :=
                  PDict {["formattedAddress" := PStr liberty_address]}]}]}
            {["address" := PDict {["formattedAddress" := PStr liberty_address]}]}
            [] eq_refl eq_refl eq_refl)));
    reflexivity.
Defined.

Lemma _search_address_no_properties_witness :
  py_get (PDict {["geometry" := PNone]}) "properties" (PDict ∅) = Return (PDict ∅) /\
  (_search_address (fun _ => Return no_properties_response)
     liberty_location []).1 = Return PNone.
Proof.
  apply (_search_address_no_properties
           (fun _ => Return no_properties_response) liberty_location []
           no_properties_response {["geometry" := PNone]} []);
    reflexivity.
Defined.

(** ** The command *)

Section Command.

Variable get_reverse_geocoding : list Q -> outcome (gmap string pyval).
Variable Image_open : string -> outcome Image.
Variable str_number : Q -> string.
Variable str_other : pyval -> string.

Local Abbreviation run := (get_address get_reverse_geocoding Image_open str_number str_other).

(** When the extractor finds no location the command prints one line and
    stops. *)
Lemma get_address_no_location
    (img_path : string) (image : Image) (log : list event) :
  Image_open img_path = Return image ->
  _get_gps_location image = Return None ->
  run img_path log =
  (Return tt, (log ++ [Print "No se encontraron datos GPS en la imagen."])%list).
Proof.
  intros Ho Hl. unfold get_address, mbind, IO_bind, lift.
  rewrite Ho, Hl. reflexivity.
Qed.

Lemma has_no_gps_block_None (image : Image) :
  has_no_gps_block image -> _get_gps_location image = Return None.
Proof.
  unfold has_no_gps_block, _get_gps_location.
  destruct (getexif image) as [exif_data|]; [|reflexivity].
  intros ->. reflexivity.
Qed.

(** C8: for an image without positioning metadata the whole run prints the
    no-GPS-data message and nothing else, ends normally, and issues no
    geocoding request. *)
Theorem get_address_no_gps_block (img_path : string) (image : Image) :
  Image_open img_path = Return image ->
  has_no_gps_block image ->
  run img_path [] =
    (Return tt, [Print "No se encontraron datos GPS en la imagen."]) /\
  requests (run img_path []).2 = [].
Proof.
  intros Ho Hn.
  pose proof (get_address_no_location img_path image []
                Ho (has_no_gps_block_None image Hn)) as H.
  rewrite H. split; reflexivity.
Qed.

End Command.

Lemma get_address_no_gps_block_witness :
  get_address (fun _ => Return liberty_response)
    (fun _ => Return (mkImage None)) (fun _ => "") (fun _ => "") "photo.jpg" [] =
    (Return tt, [Print "No se encontraron datos GPS en la imagen."]) /\
  requests (get_address (fun _ => Return liberty_response)
    (fun _ => Return (mkImage None)) (fun _ => "") (fun _ => "") "photo.jpg" []).2 = [].
Proof.
  apply (get_address_no_gps_block (fun _ => Return liberty_response)
           (fun _ => Return (mkImage None)) (fun _ => "") (fun _ => "")
           "photo.jpg" (mkImage None)).
  - reflexivity.
  - exact I.
Defined.

(** ** End-to-end runs *)

(** The Statue of Liberty image with a matching response: one request, with
    the longitude first, and the address as the last printed line. *)
Example get_address_liberty :
  let log := (get_address (fun _ => Return liberty_response)
                (fun _ => Return liberty_image) (fun _ => "_") (fun _ => "_")
                "liberty.jpg" []).2 in
  requests log = [[to_decimal (mkGPSCoordinate 74 2 40 "W");
                   to_decimal (mkGPSCoordinate 40 41 21 "N")]] /\
  last (printed log) = Some liberty_address.
Proof. vm_compute. split; reflexivity. Qed.

(** The same image with an empty feature list: the run ends in [IndexError]
    after the request, and the no-address line is not printed. *)
Example get_address_liberty_empty_features :
  let run := get_address (fun _ => Return empty_features_response)
               (fun _ => Return liberty_image) (fun _ => "_") (fun _ => "_")
               "liberty.jpg" [] in
  run.1 = Raise IndexError /\
  last (printed run.2) = Some (String "010"%char "Buscando dirección...").
Proof. vm_compute. split; reflexivity. Qed.

(** * Further properties of [get_address.py] *)

(** ** More on the converter *)

Section ConverterMore.

Local Open Scope Q_scope.




(** X2: two coordinates with the same degrees, minutes and seconds, one
    with hemisphere ['S'] or ['W'] and one with any other hemisphere, have
    opposite decimal values. *)
Theorem to_decimal_opposite_hemisphere (c c' : GPSCoordinate) :
  degrees c = degrees c' -> minutes c = minutes c' -> seconds c = seconds c' ->
  direction c = "S" \/ direction c = "W" ->
  direction c' <> "S" -> direction c' <> "W" ->
  to_decimal c == - to_decimal c'.
Proof.
  intros Hd Hm Hs Hc HS HW.
  rewrite (to_decimal_negated c Hc), (to_decimal_plain c' HS HW).
  unfold magnitude. rewrite Hd, Hm, Hs. reflexivity.
Qed.

Lemma to_decimal_opposite_hemisphere_witness :
  to_decimal (mkGPSCoordinate 33 51 54 "S")
  == - to_decimal (mkGPSCoordinate 33 51 54 "N").
Proof.
  apply (to_decimal_opposite_hemisphere
           (mkGPSCoordinate 33 51 54 "S") (mkGPSCoordinate 33 51 54 "N"));
    simpl; try reflexivity; try discriminate.
  left; reflexivity.
Defined.

End ConverterMore.

(** ** More on the extractor *)

Section ExtractorMore.

Import ExifTags.

(** X3: when the four fields are present, the triplets have at least three
    components and the references are strings, the extractor returns the
    location built from the first three components and the references;
    further components are ignored. *)
Theorem _get_gps_location_success
    (img : Image) (d m s d' m' s' : Q) (rest rest' : list Q) (ref ref' : string) :
  gps_field img GPS.GPSLatitude = Some (Rationals (d :: m :: s :: rest)) ->
  gps_field img GPS.GPSLatitudeRef = Some (Ascii ref) ->
  gps_field img GPS.GPSLongitude = Some (Rationals (d' :: m' :: s' :: rest')) ->
  gps_field img GPS.GPSLongitudeRef = Some (Ascii ref') ->
  _get_gps_location img =
  Return (Some (mkGPSLocation (mkGPSCoordinate d m s ref)
                              (mkGPSCoordinate d' m' s' ref'))).
Proof.
  intros Hlat Hlatr Hlon Hlonr.
  rewrite _get_gps_location_fields, Hlat, Hlatr, Hlon, Hlonr.
  reflexivity.
Qed.

Lemma _get_gps_location_success_witness :
  _get_gps_location (image_of_gps liberty_gps_with_altitude) =
  Return (Some liberty_location).
Proof.
  apply (_get_gps_location_success (image_of_gps liberty_gps_with_altitude)
           40 41 21 74 2 40 [] [] "N" "W"); reflexivity.
Defined.

Lemma GPSCoordinate_of_short (l : list Q) (ref : exif_value) :
  (length l < 3)%nat -> GPSCoordinate_of (Rationals l) ref = Raise IndexError.
Proof.
  destruct l as [|d [|m [|s l]]]; cbn; intros H; try reflexivity; lia.
Qed.

(** X4: with the four fields present and string references, a latitude or
    longitude triplet of fewer than three components makes the extractor
    raise [IndexError]. *)
Theorem _get_gps_location_short_triplet
    (img : Image) (lat lon : list Q) (lat_ref lon_ref : string) :
  gps_field img GPS.GPSLatitude = Some (Rationals lat) ->
  gps_field img GPS.GPSLatitudeRef = Some (Ascii lat_ref) ->
  gps_field img GPS.GPSLongitude = Some (Rationals lon) ->
  gps_field img GPS.GPSLongitudeRef = Some (Ascii lon_ref) ->
  (length lat < 3)%nat \/ (length lon < 3)%nat ->
  _get_gps_location img = Raise IndexError.
Proof.
  intros Hlat Hlatr Hlon Hlonr Hshort.
  rewrite _get_gps_location_fields, Hlat, Hlatr, Hlon, Hlonr.
  destruct (decide (length lon < 3)%nat) as [Hlo | Hlo].
  - rewrite (GPSCoordinate_of_short lon _ Hlo). reflexivity.
  - destruct Hshort as [Hla | ?]; [|contradiction].
    destruct lon as [|d [|m [|s lon]]]; cbn in Hlo; try lia.
    rewrite (GPSCoordinate_of_short lat _ Hla). reflexivity.
Qed.

Lemma _get_gps_location_short_triplet_witness :
  _get_gps_location (image_of_gps short_longitude_gps) = Raise IndexError.
Proof.
  apply (_get_gps_location_short_triplet (image_of_gps short_longitude_gps)
           [40; 41; 21]%Q [74; 2]%Q "N" "W"); try reflexivity.
  right. cbn. lia.
Defined.

(** X5: the extractor reads the four fields and nothing else: two images
    that agree on them give the same result, whatever other blocks and
    fields they hold. *)
Theorem _get_gps_location_four_fields_only (img img' : Image) :
  gps_field img GPS.GPSLatitude = gps_field img' GPS.GPSLatitude ->
  gps_field img GPS.GPSLatitudeRef = gps_field img' GPS.GPSLatitudeRef ->
  gps_field img GPS.GPSLongitude = gps_field img' GPS.GPSLongitude ->
  gps_field img GPS.GPSLongitudeRef = gps_field img' GPS.GPSLongitudeRef ->
  _get_gps_location img = _get_gps_location img'.
Proof.
  intros H1 H2 H3 H4.
  rewrite !_get_gps_location_fields, H1, H2, H3, H4. reflexivity.
Qed.

Lemma _get_gps_location_four_fields_only_witness :
  _get_gps_location (image_of_gps liberty_gps_with_altitude) =
  _get_gps_location liberty_image.
Proof.
  apply (_get_gps_location_four_fields_only
           (image_of_gps liberty_gps_with_altitude) liberty_image);
    reflexivity.
Defined.

End ExtractorMore.

(** ** More on the adapter *)

Section AdapterMore.

Variable get_reverse_geocoding : list Q -> outcome (gmap string pyval).

(** One run of the adapter: the request is logged, then the response is
    handled. *)
Lemma _search_address_run (location : GPSLocation) (log : list event) :
  _search_address get_reverse_geocoding location log =
  (result ← get_reverse_geocoding
              [to_decimal (longitude location); to_decimal (latitude location)];
   _search_address_result result,
   (log ++ [request_of location])%list).
Proof.
  unfold _search_address, call_get_reverse_geocoding, lift, request_of.
  cbn [mbind IO_bind].
  destruct (get_reverse_geocoding _); reflexivity.
Qed.

(** The handling of a response whose feature list starts with [feature]. *)
Lemma _search_address_result_head
    (result : gmap string pyval) (feature : pyval) (rest : list pyval) :
  result !! "features" = Some (PList (feature :: rest)) ->
  _search_address_result result =
  props ← py_get feature "properties" (PDict ∅);
  has_address ← py_contains "address" props;
  if negb has_address then Return PNone
  else
    address ← py_getitem props "address";
    py_get address "formattedAddress" PNone.
Proof.
  intros Hf. unfold _search_address_result.
  rewrite bool_decide_eq_true_2 by (rewrite Hf; eauto).
  cbn [negb py_getitem]. rewrite Hf, bind_Return.
  cbn [py_index lookup list_lookup]. rewrite bind_Return. reflexivity.
Qed.

(** X6: when the service raises, the adapter raises the same exception;
    the request has been issued and nothing of a response is handled. *)
Theorem _search_address_service_error
    (location : GPSLocation) (log : list event) (e : exn) :
  get_reverse_geocoding
    [to_decimal (longitude location); to_decimal (latitude location)]
    = Raise e ->
  _search_address get_reverse_geocoding location log =
  (Raise e, (log ++ [request_of location])%list).
Proof.
  intros Hs. rewrite _search_address_run, Hs. reflexivity.
Qed.

(** X7: a response without the [features] key (an error body, an empty
    object) makes the adapter return [None], whatever else it holds. *)
Theorem _search_address_no_features_key
    (location : GPSLocation) (log : list event) (result : gmap string pyval) :
  get_reverse_geocoding
    [to_decimal (longitude location); to_decimal (latitude location)]
    = Return result ->
  result !! "features" = None ->
  _search_address get_reverse_geocoding location log =
  (Return PNone, (log ++ [request_of location])%list).
Proof.
  intros Hs Hf. rewrite _search_address_run, Hs, bind_Return.
  unfold _search_address_result. rewrite Hf. reflexivity.
Qed.

(** X8: only the first feature is consulted: two responses whose feature
    lists start with the same feature are handled alike. *)
Theorem _search_address_result_first_feature_only
    (result result' : gmap string pyval) (feature : pyval) (rest rest' : list pyval) :
  result !! "features" = Some (PList (feature :: rest)) ->
  result' !! "features" = Some (PList (feature :: rest')) ->
  _search_address_result result = _search_address_result result'.
Proof.
  intros H H'.
  rewrite (_search_address_result_head result feature rest H).
  rewrite (_search_address_result_head result' feature rest' H').
  reflexivity.
Qed.

(** X9: a first feature whose [properties] entry is present but is
    [None], a boolean or a number makes the adapter raise [TypeError]: the
    empty-dict default of [.get('properties', {})] applies to a missing key
    only. *)
Theorem _search_address_scalar_properties
    (location : GPSLocation) (log : list event)
    (result feature : gmap string pyval) (rest : list pyval) (props : pyval) :
  get_reverse_geocoding
    [to_decimal (longitude location); to_decimal (latitude location)]
    = Return result ->
  result !! "features" = Some (PList (PDict feature :: rest)) ->
  feature !! "properties" = Some props ->
  props = PNone \/ (exists b, props = PBool b) \/ (exists q, props = PNum q) ->
  (_search_address get_reverse_geocoding location log).1 = Raise TypeError.
Proof.
  intros Hs Hf Hp Hscalar.
  rewrite _search_address_run, Hs, bind_Return. cbn [fst].
  rewrite (_search_address_result_head result (PDict feature) rest Hf).
  cbn [py_get]. rewrite Hp. cbn [default from_option id]. rewrite bind_Return.
  destruct Hscalar as [-> | [[b ->] | [q ->]]]; reflexivity.
Qed.

(** X10: an [address] entry that is present in the properties dict but is
    not itself a dict makes the adapter raise [AttributeError]. *)
Theorem _search_address_address_not_dict
    (location : GPSLocation) (log : list event)
    (result feature props : gmap string pyval) (rest : list pyval) (address : pyval) :
  get_reverse_geocoding
    [to_decimal (longitude location); to_decimal (latitude location)]
    = Return result ->
  result !! "features" = Some (PList (PDict feature :: rest)) ->
  feature !! "properties" = Some (PDict props) ->
  props !! "address" = Some address ->
  (forall m, address <> PDict m) ->
  (_search_address get_reverse_geocoding location log).1 = Raise AttributeError.
Proof.
  intros Hs Hf Hp Ha Hnd.
  rewrite _search_address_run, Hs, bind_Return. cbn [fst].
  rewrite (_search_address_result_head result (PDict feature) rest Hf).
  cbn [py_get]. rewrite Hp. cbn [default from_option id]. rewrite bind_Return.
  cbn [py_contains]. rewrite bind_Return.
  rewrite bool_decide_eq_true_2 by (rewrite Ha; eauto).
  cbn [negb py_getitem]. rewrite Ha, bind_Return.
  destruct address; try reflexivity.
  exfalso. eapply Hnd. reflexivity.
Qed.

End AdapterMore.

Lemma _search_address_service_error_witness :
  _search_address (fun _ => Raise ServiceError) liberty_location [] =
  (Raise ServiceError, [request_of liberty_location]).
Proof.
  apply (_search_address_service_error (fun _ => Raise ServiceError)
           liberty_location [] ServiceError).
  reflexivity.
Defined.

Lemma _search_address_no_features_key_witness :
  _search_address (fun _ => Return error_response) liberty_location [] =
  (Return PNone, [request_of liberty_location]).
Proof.
  apply (_search_address_no_features_key (fun _ => Return error_response)
           liberty_location [] error_response); reflexivity.
Defined.

Lemma _search_address_result_first_feature_only_witness :
  _search_address_result two_features_response =
  _search_address_result {["features" := PList [PDict {["properties" := PDict ∅]}]]}.
Proof.
  apply (_search_address_result_first_feature_only
           two_features_response
           {["features" := PList [PDict {["properties" := PDict ∅]}]]}
           (PDict {["properties" := PDict ∅]})
           [PDict {["properties" :=
              PDict {["address" :=
                PDict {["formattedAddress" := PStr liberty_address]}]}]}]
           []); reflexivity.
Defined.

Lemma _search_address_scalar_properties_witness :
  (_search_address (fun _ => Return null_properties_response)
     liberty_location []).1 = Raise TypeError.
Proof.
  apply (_search_address_scalar_properties
           (fun _ => Return null_properties_response) liberty_location []
           null_properties_response {["properties" := PNone]} [] PNone);
    try reflexivity.
  left; reflexivity.
Defined.

Lemma _search_address_address_not_dict_witness :
  (_search_address (fun _ => Return string_address_response)
     liberty_location []).1 = Raise AttributeError.
Proof.
  apply (_search_address_address_not_dict
           (fun _ => Return string_address_response) liberty_location []
           string_address_response
           {["properties" := PDict {["address" := PStr liberty_address]}]}
           {["address" := PStr liberty_address]} [] (PStr liberty_address));
    try reflexivity.
  intros m. discriminate.
Defined.

(** ** More on the command *)

Section CommandMore.

Variable get_reverse_geocoding : list Q -> outcome (gmap string pyval).
Variable Image_open : string -> outcome Image.
Variable str_number : Q -> string.
Variable str_other : pyval -> string.

Local Abbreviation run :=
  (get_address get_reverse_geocoding Image_open str_number str_other).

(** What the adapter returns for a location, effects apart. *)
Local Abbreviation searched location :=
  (result ← get_reverse_geocoding
              [to_decimal (longitude location); to_decimal (latitude location)];
   _search_address_result result).

(** A run that finds a location: the coordinates are printed, the request
    is issued, and the end depends on the adapter's outcome. *)
Lemma get_address_located
    (img_path : string) (image : Image) (location : GPSLocation) (log : list event) :
  Image_open img_path = Return image ->
  _get_gps_location image = Return (Some location) ->
  run img_path log =
  match searched location with
  | Raise e =>
      (Raise e,
       (log ++ coordinates_lines str_number location ++ [request_of location])%list)
  | Return PNone =>
      (Return tt,
       (log ++ coordinates_lines str_number location ++
        [request_of location;
         Print "No se pudo encontrar la dirección para estas coordenadas."])%list)
  | Return address =>
      (Return tt,
       (log ++ coordinates_lines str_number location ++
        [request_of location;
         Print "Dirección encontrada:";
         Print (py_str str_other address)])%list)
  end.
Proof.
  intros Ho Hl.
  unfold get_address, _search_address, call_get_reverse_geocoding,
    mbind, IO_bind, outcome_bind, lift, print, coordinates_lines, request_of.
  rewrite Ho, Hl.
  destruct (get_reverse_geocoding _) as [result|e];
    [destruct (_search_address_result result) as [[| | | | |]|e]|];
    cbn; rewrite <- ?app_assoc; reflexivity.
Qed.

(** A run whose decoding or extraction raises stops there. *)
Lemma get_address_early_raise (img_path : string) (e : exn) (log : list event) :
  (image ← Image_open img_path; _get_gps_location image) = Raise e ->
  run img_path log = (Raise e, log).
Proof.
  unfold get_address, mbind, IO_bind, outcome_bind, lift.
  destruct (Image_open img_path) as [image|e'].
  - intros ->. reflexivity.
  - intros [= ->]. reflexivity.
Qed.

(** X11: when the image has a location and the adapter returns an address
    string, the run prints the four coordinate lines, issues one request,
    prints the heading and the address, and ends normally. *)
Theorem get_address_prints_address
    (img_path : string) (image : Image) (location : GPSLocation) (address : string) :
  Image_open img_path = Return image ->
  _get_gps_location image = Return (Some location) ->
  searched location = Return (PStr address) ->
  run img_path [] =
  (Return tt,
   (coordinates_lines str_number location ++
    [request_of location; Print "Dirección encontrada:"; Print address])%list).
Proof.
  intros Ho Hl Hs.
  rewrite (get_address_located img_path image location [] Ho Hl), Hs.
  reflexivity.
Qed.

(** X12: when the image has a location and the adapter returns [None], the
    run prints the four coordinate lines, issues one request, prints the
    no-address line and ends normally. *)
Theorem get_address_prints_no_address
    (img_path : string) (image : Image) (location : GPSLocation) :
  Image_open img_path = Return image ->
  _get_gps_location image = Return (Some location) ->
  searched location = Return PNone ->
  run img_path [] =
  (Return tt,
   (coordinates_lines str_number location ++
    [request_of location;
     Print "No se pudo encontrar la dirección para estas coordenadas."])%list).
Proof.
  intros Ho Hl Hs.
  rewrite (get_address_located img_path image location [] Ho Hl), Hs.
  reflexivity.
Qed.

(** X13: when the search raises (the service fails, or the response cannot
    be handled), the run ends with that exception right after the request:
    the coordinates have been printed, no result line is. *)
Theorem get_address_search_raises
    (img_path : string) (image : Image) (location : GPSLocation) (e : exn) :
  Image_open img_path = Return image ->
  _get_gps_location image = Return (Some location) ->
  searched location = Raise e ->
  run img_path [] =
  (Raise e, (coordinates_lines str_number location ++ [request_of location])%list).
Proof.
  intros Ho Hl Hs.
  rewrite (get_address_located img_path image location [] Ho Hl), Hs.
  reflexivity.
Qed.

(** X14: when opening the image or extracting its location raises, the run
    ends with that exception; nothing is printed and no request is issued. *)
Theorem get_address_early_failure (img_path : string) (e : exn) :
  (image ← Image_open img_path; _get_gps_location image) = Raise e ->
  run img_path [] = (Raise e, []).
Proof.
  intros H. apply get_address_early_raise, H.
Qed.




End CommandMore.

Lemma get_address_prints_address_witness :
  get_address (fun _ => Return liberty_response) (fun _ => Return liberty_image)
    (fun _ => "_") (fun _ => "_") "liberty.jpg" [] =
  (Return tt,
   (coordinates_lines (fun _ => "_") liberty_location ++
    [request_of liberty_location; Print "Dirección encontrada:";
     Print liberty_address])%list).
Proof.
  apply (get_address_prints_address (fun _ => Return liberty_response)
           (fun _ => Return liberty_image) (fun _ => "_") (fun _ => "_")
           "liberty.jpg" liberty_image liberty_location liberty_address);
    vm_compute; reflexivity.
Defined.

Lemma get_address_prints_no_address_witness :
  get_address (fun _ => Return error_response) (fun _ => Return liberty_image)
    (fun _ => "_") (fun _ => "_") "liberty.jpg" [] =
  (Return tt,
   (coordinates_lines (fun _ => "_") liberty_location ++
    [request_of liberty_location;
     Print "No se pudo encontrar la dirección para estas coordenadas."])%list).
Proof.
  apply (get_address_prints_no_address (fun _ => Return error_response)
           (fun _ => Return liberty_image) (fun _ => "_") (fun _ => "_")
           "liberty.jpg" liberty_image liberty_location);
    vm_compute; reflexivity.
Defined.

Lemma get_address_search_raises_witness :
  get_address (fun _ => Raise ServiceError) (fun _ => Return liberty_image)
    (fun _ => "_") (fun _ => "_") "liberty.jpg" [] =
  (Raise ServiceError,
   (coordinates_lines (fun _ => "_") liberty_location ++
    [request_of liberty_location])%list).
Proof.
  apply (get_address_search_raises (fun _ => Raise ServiceError)
           (fun _ => Return liberty_image) (fun _ => "_") (fun _ => "_")
           "liberty.jpg" liberty_image liberty_location ServiceError);
    vm_compute; reflexivity.
Defined.

Lemma get_address_early_failure_witness :
  get_address (fun _ => Return liberty_response)
    (fun _ => Return (image_of_gps short_longitude_gps))
    (fun _ => "_") (fun _ => "_") "short.jpg" [] =
  (Raise IndexError, []).
Proof.
  apply (get_address_early_failure (fun _ => Return liberty_response)
           (fun _ => Return (image_of_gps short_longitude_gps))
           (fun _ => "_") (fun _ => "_") "short.jpg" IndexError).
  vm_compute. reflexivity.
Defined.

(** * Properties of [detect_faces.py] *)

Section DetectFacesProperties.

Import DetectFaces.

Local Open Scope Z_scope.

(** X16: [_to_coords] loses nothing: the rectangle is recovered from the
    box as [(x0, y0, x1 - x0, y1 - y0)]. *)
Theorem _to_coords_recovers_rectangle (face_rectangle : FaceRectangle) :
  let '(x0, y0, x1, y1) := _to_coords face_rectangle in
  mkFaceRectangle x0 y0 (x1 - x0) (y1 - y0) = face_rectangle.
Proof.
  destruct face_rectangle as [l t w h]. cbn. f_equal; lia.
Qed.

(** X17: the box of [_to_coords] has its right edge at or after its left
    edge exactly when the width is not negative, and its bottom edge at or
    after its top edge exactly when the height is not negative. *)
Theorem _to_coords_ordered_iff (face_rectangle : FaceRectangle) :
  let '(x0, y0, x1, y1) := _to_coords face_rectangle in
  (x0 <= x1 <-> 0 <= width face_rectangle) /\
  (y0 <= y1 <-> 0 <= height face_rectangle).
Proof.
  destruct face_rectangle as [l t w h]. cbn. lia.
Qed.

Variable read_binary : string -> outcome (list Byte.byte).
Variable detect : list Byte.byte -> outcome (list Face).
Variable Image_open : list Byte.byte -> outcome unit.
Variable draw_rectangle : Z * Z * Z * Z -> outcome unit.

Local Abbreviation run := (main read_binary detect Image_open draw_rectangle).

(** The loop draws every box in order as long as drawing succeeds. *)
Lemma draw_faces_all (faces : list Face) (log : list event) :
  Forall (fun face => draw_rectangle (box_of face) = Return tt) faces ->
  draw_faces draw_rectangle (map box_of faces) log =
  (Return tt, (log ++ rectangles faces)%list).
Proof.
  intros H. revert log.
  induction H as [|face faces Hd _ IH]; intros log.
  - cbn. rewrite app_nil_r. reflexivity.
  - cbn [map draw_faces]. unfold mbind, IOE_bind, callE.
    rewrite Hd, IH. unfold rectangles. cbn [map].
    rewrite <- app_assoc. reflexivity.
Qed.

(** The loop stops at the first box whose drawing raises. *)
Lemma draw_faces_stops
    (before : list Face) (face : Face) (after : list Face) (e : exn)
    (log : list event) :
  Forall (fun face => draw_rectangle (box_of face) = Return tt) before ->
  draw_rectangle (box_of face) = Raise e ->
  draw_faces draw_rectangle (map box_of (before ++ face :: after)%list) log =
  (Raise e, (log ++ rectangles (before ++ [face])%list)%list).
Proof.
  intros H He. revert log.
  induction H as [|first before Hd _ IH]; intros log.
  - cbn [app map draw_faces]. unfold mbind, IOE_bind, callE.
    rewrite He. reflexivity.
  - cbn [app map draw_faces]. unfold mbind, IOE_bind, callE.
    rewrite Hd, IH. unfold rectangles. cbn [app map].
    rewrite <- app_assoc. reflexivity.
Qed.

(** The run up to the decoding of the image. *)
Lemma main_after_detection
    (image_path : string) (image_content : list Byte.byte) (faces : list Face) :
  read_binary image_path = Return image_content ->
  detect image_content = Return faces ->
  run image_path [] =
  match Image_open image_content with
  | Raise e => (Raise e, [detect_event image_content; found_line (length faces)])
  | Return _ =>
      match draw_faces draw_rectangle (map box_of faces)
              [detect_event image_content; found_line (length faces)] with
      | (Return _, log) => (Return tt, (log ++ [Show])%list)
      | (Raise e, log) => (Raise e, log)
      end
  end.
Proof.
  intros Hr Hd.
  unfold main, _detect_faces, mbind, IOE_bind, mret, IOE_ret, liftE, callE.
  rewrite Hr. cbn [app]. rewrite Hd. rewrite length_map.
  destruct (Image_open image_content) as [[]|e]; [|reflexivity].
  unfold detect_event, found_line, box_of.
  destruct (draw_faces _ _ _) as [[[]|e] log]; reflexivity.
Qed.

(** X18: when the file is read, the service returns [faces], the bytes
    decode and every rectangle can be drawn, the run is: one detection
    request, the line with the number of faces, one green rectangle of
    width 5 per face in the order of the result, at the box of
    [_to_coords], and then the display of the image. *)
Theorem main_draws_every_face
    (image_path : string) (image_content : list Byte.byte) (faces : list Face) :
  read_binary image_path = Return image_content ->
  detect image_content = Return faces ->
  Image_open image_content = Return tt ->
  Forall (fun face => draw_rectangle (box_of face) = Return tt) faces ->
  run image_path [] =
  (Return tt,
   ([detect_event image_content; found_line (length faces)]
    ++ rectangles faces ++ [Show])%list).
Proof.
  intros Hr Hd Ho Hdraw.
  rewrite (main_after_detection image_path image_content faces Hr Hd), Ho.
  rewrite (draw_faces_all faces _ Hdraw).
  rewrite <- app_assoc. reflexivity.
Qed.

(** X19: when the face service raises, the run ends with that exception
    after the request: nothing is printed, drawn or displayed. *)
Theorem main_detection_fails
    (image_path : string) (image_content : list Byte.byte) (e : exn) :
  read_binary image_path = Return image_content ->
  detect image_content = Raise e ->
  run image_path [] = (Raise e, [detect_event image_content]).
Proof.
  intros Hr Hd.
  unfold main, _detect_faces, mbind, IOE_bind, liftE, callE.
  rewrite Hr. cbn [app]. rewrite Hd. reflexivity.
Qed.

(** X20: when the bytes do not decode into an image, the run ends with the
    decoder's exception; the faces were already detected and counted on the
    printed line, and nothing is drawn or displayed. *)
Theorem main_decoding_fails
    (image_path : string) (image_content : list Byte.byte)
    (faces : list Face) (e : exn) :
  read_binary image_path = Return image_content ->
  detect image_content = Return faces ->
  Image_open image_content = Raise e ->
  run image_path [] =
  (Raise e, [detect_event image_content; found_line (length faces)]).
Proof.
  intros Hr Hd Ho.
  rewrite (main_after_detection image_path image_content faces Hr Hd), Ho.
  reflexivity.
Qed.

(** X21: when drawing a rectangle raises, the faces before it have their
    rectangles, the faces after it are not drawn, and the image is not
    displayed. *)
Theorem main_drawing_fails
    (image_path : string) (image_content : list Byte.byte)
    (before : list Face) (face : Face) (after : list Face) (e : exn) :
  read_binary image_path = Return image_content ->
  detect image_content = Return (before ++ face :: after)%list ->
  Image_open image_content = Return tt ->
  Forall (fun face => draw_rectangle (box_of face) = Return tt) before ->
  draw_rectangle (box_of face) = Raise e ->
  run image_path [] =
  (Raise e,
   ([detect_event image_content;
     found_line (length (before ++ face :: after)%list)]
    ++ rectangles (before ++ [face])%list)%list).
Proof.
  intros Hr Hd Ho Hb He.
  rewrite (main_after_detection image_path image_content _ Hr Hd), Ho.
  rewrite (draw_faces_stops before face after e _ Hb He).
  reflexivity.
Qed.

End DetectFacesProperties.

Lemma main_draws_every_face_witness :
  DetectFaces.main (fun _ => Return DetectFaces.sample_content)
    (fun _ => Return DetectFaces.sample_faces)
    (fun _ => Return tt) (fun _ => Return tt) "faces.jpg" [] =
  (Return tt,
   [DetectFaces.detect_event DetectFaces.sample_content;
    DetectFaces.Print "Found 2 face(s) in the image.";
    DetectFaces.Rectangle (10, 20, 40, 60)%Z "green" 5;
    DetectFaces.Rectangle (100, 50, 125, 75)%Z "green" 5;
    DetectFaces.Show]).
Proof.
  apply (main_draws_every_face (fun _ => Return DetectFaces.sample_content)
           (fun _ => Return DetectFaces.sample_faces)
           (fun _ => Return tt) (fun _ => Return tt)
           "faces.jpg" DetectFaces.sample_content DetectFaces.sample_faces);
    try reflexivity.
  repeat constructor.
Defined.

Lemma main_detection_fails_witness :
  DetectFaces.main (fun _ => Return DetectFaces.sample_content)
    (fun _ => Raise ServiceError)
    (fun _ => Return tt) (fun _ => Return tt) "faces.jpg" [] =
  (Raise ServiceError, [DetectFaces.detect_event DetectFaces.sample_content]).
Proof.
  apply (main_detection_fails (fun _ => Return DetectFaces.sample_content)
           (fun _ => Raise ServiceError)
           (fun _ => Return tt) (fun _ => Return tt)
           "faces.jpg" DetectFaces.sample_content ServiceError);
    reflexivity.
Defined.

Lemma main_decoding_fails_witness :
  DetectFaces.main (fun _ => Return DetectFaces.sample_content)
    (fun _ => Return DetectFaces.sample_faces)
    (fun _ => Raise TypeError) (fun _ => Return tt) "faces.jpg" [] =
  (Raise TypeError,
   [DetectFaces.detect_event DetectFaces.sample_content;
    DetectFaces.Print "Found 2 face(s) in the image."]).
Proof.
  apply (main_decoding_fails (fun _ => Return DetectFaces.sample_content)
           (fun _ => Return DetectFaces.sample_faces)
           (fun _ => Raise TypeError) (fun _ => Return tt)
           "faces.jpg" DetectFaces.sample_content DetectFaces.sample_faces
           TypeError);
    reflexivity.
Defined.

Lemma main_drawing_fails_witness :
  DetectFaces.main (fun _ => Return DetectFaces.sample_content)
    (fun _ => Return DetectFaces.sample_faces)
    (fun _ => Return tt)
    (fun xy => if (xy.1.1.1 =? 100)%Z then Raise TypeError else Return tt)
    "faces.jpg" [] =
  (Raise TypeError,
   [DetectFaces.detect_event DetectFaces.sample_content;
    DetectFaces.Print "Found 2 face(s) in the image.";
    DetectFaces.Rectangle (10, 20, 40, 60)%Z "green" 5;
    DetectFaces.Rectangle (100, 50, 125, 75)%Z "green" 5]).
Proof.
  apply (main_drawing_fails (fun _ => Return DetectFaces.sample_content)
           (fun _ => Return DetectFaces.sample_faces)
           (fun _ => Return tt)
           (fun xy => if (xy.1.1.1 =? 100)%Z then Raise TypeError else Return tt)
           "faces.jpg" DetectFaces.sample_content
           [DetectFaces.mkFace (DetectFaces.mkFaceRectangle 10 20 30 40)]
           (DetectFaces.mkFace (DetectFaces.mkFaceRectangle 100 50 25 25))
           [] TypeError);
    try reflexivity.
  repeat constructor.
Defined.

(** * Properties of [translate.py] *)

Section TranslateProperties.

Import Translate.

Variable detect_language : string -> outcome (gmap string pyval).
Variable translate : string -> string -> outcome (gmap string pyval).
Variable format_percent : pyval -> outcome string.
Variable str_other : pyval -> string.

Local Abbreviation run :=
  (translate_cmd detect_language translate format_percent str_other).

(** X22: when both calls succeed and the responses hold the keys read, the
    run is: the detection request, the line with the detected language and
    the confidence, the translation request for the same text and the given
    target, and the line with the translated text. *)
Theorem translate_cmd_success
    (text target_lang : string) (detect_lang_res translation_res : gmap string pyval)
    (language confidence translated : pyval) (percent : string) :
  detect_language text = Return detect_lang_res ->
  detect_lang_res !! "language" = Some language ->
  detect_lang_res !! "confidence" = Some confidence ->
  format_percent confidence = Return percent ->
  translate text target_lang = Return translation_res ->
  translation_res !! "translatedText" = Some translated ->
  run text target_lang [] =
  (Return tt,
   [DetectLanguage text;
    Print ("Lenguaje detectado: '" ++ py_str str_other language
           ++ "' [confianza: " ++ percent ++ "]");
    TranslateText text target_lang;
    Print ("Traducción a '" ++ target_lang ++ "': "
           ++ py_str str_other translated)]).
Proof.
  intros Hd Hl Hc Hp Ht Htt.
  unfold translate_cmd, mbind, IOE_bind, liftE, callE, py_getitem.
  rewrite Hd, Hl, Hc, Hp. cbn [app]. rewrite Ht, Htt. reflexivity.
Qed.

(** X23: when the detection response lacks [language] or [confidence],
    the run ends with [KeyError] after the detection request: nothing is
    printed and no translation is requested. *)
Theorem translate_cmd_detection_key_missing
    (text target_lang : string) (detect_lang_res : gmap string pyval) :
  detect_language text = Return detect_lang_res ->
  detect_lang_res !! "language" = None \/
  detect_lang_res !! "confidence" = None ->
  run text target_lang [] = (Raise KeyError, [DetectLanguage text]).
Proof.
  intros Hd Hk.
  unfold translate_cmd, mbind, IOE_bind, liftE, callE, py_getitem.
  rewrite Hd.
  destruct (detect_lang_res !! "language") as [language|]; [|reflexivity].
  destruct Hk as [Hk | Hk]; [discriminate|].
  rewrite Hk. reflexivity.
Qed.

(** X24: in every run of the body the detection request for the text comes
    first; the translation request is issued at most once, after it, for
    the same text and the given target language. *)
Theorem translate_cmd_calls (text target_lang : string) :
  calls (run text target_lang []).2 = [DetectLanguage text] \/
  calls (run text target_lang []).2 =
    [DetectLanguage text; TranslateText text target_lang].
Proof.
  unfold translate_cmd, mbind, IOE_bind, liftE, callE, py_getitem.
  destruct (detect_language text) as [detect_lang_res|]; [|left; reflexivity].
  destruct (detect_lang_res !! "language"); [|left; reflexivity].
  destruct (detect_lang_res !! "confidence") as [confidence|];
    [|left; reflexivity].
  destruct (format_percent confidence); [|left; reflexivity].
  cbn [app].
  destruct (translate text target_lang) as [translation_res|];
    [|right; reflexivity].
  destruct (translation_res !! "translatedText"); right; reflexivity.
Qed.

End TranslateProperties.

Lemma translate_cmd_success_witness :
  Translate.translate_cmd (fun _ => Return Translate.sample_detection)
    (fun _ _ => Return Translate.sample_translation)
    (fun _ => Return "100.00%") (fun _ => "_") "hello" "es" [] =
  (Return tt,
   [Translate.DetectLanguage "hello";
    Translate.Print "Lenguaje detectado: 'en' [confianza: 100.00%]";
    Translate.TranslateText "hello" "es";
    Translate.Print "Traducción a 'es': hola"]).
Proof.
  apply (translate_cmd_success (fun _ => Return Translate.sample_detection)
           (fun _ _ => Return Translate.sample_translation)
           (fun _ => Return "100.00%") (fun _ => "_") "hello" "es"
           Translate.sample_detection Translate.sample_translation
           (PStr "en") (PNum 1) (PStr "hola") "100.00%");
    reflexivity.
Defined.

Lemma translate_cmd_detection_key_missing_witness :
  Translate.translate_cmd (fun _ => Return ∅)
    (fun _ _ => Return Translate.sample_translation)
    (fun _ => Return "100.00%") (fun _ => "_") "hello" "es" [] =
  (Raise KeyError, [Translate.DetectLanguage "hello"]).
Proof.
  apply (translate_cmd_detection_key_missing (fun _ => Return ∅)
           (fun _ _ => Return Translate.sample_translation)
           (fun _ => Return "100.00%") (fun _ => "_") "hello" "es" ∅).
  - reflexivity.
  - left. reflexivity.
Defined.
